(** * prompt_lab: the support routing workflow and the SQL assistant bootstrap

    A shallow embedding of [dev/agent.ts] and [sqltool/index.ts].

    Both scripts are glue around external services (a chat model, a graph
    engine, a database).  The glue is embedded as programs over an explicit
    signature of external calls: a program is a finite tree whose inner nodes
    are calls and whose leaves are a returned value, an uncaught exception or
    a process exit.  A handler answers the calls; running a program against a
    handler yields the outcome and the log of the calls that were made, so
    that "what was passed to the model" and "which steps never ran" are
    statements about the log. *)

From Stdlib Require Import List String Ascii ZArith Lia Bool.
Import ListNotations.

Local Open Scope string_scope.
Local Open Scope list_scope.

(** ** JavaScript built-ins used by the scripts *)

Module JS.

(** [String.prototype.startsWith] at position 0. *)
Fixpoint startsWith (s t : string) {struct t} : bool :=
  match t with
  | EmptyString => true
  | String b t' =>
      match s with
      | EmptyString => false
      | String a s' => Ascii.eqb a b && startsWith s' t'
      end
  end.

(** [String.prototype.includes]: [t] occurs in [s] at some position.
    Strings are sequences of bytes here (UTF-8) and of UTF-16 code units in
    the engine; the labels the router compares are ASCII. *)
Fixpoint includes (s t : string) : bool :=
  startsWith s t ||
  match s with
  | EmptyString => false
  | String _ s' => includes s' t
  end.

(** What [includes] decides: [t] occurs in [s]. *)
Definition Substring (t s : string) : Prop :=
  exists pre post : string, s = (pre ++ t ++ post)%string.

(** [Array.prototype.at]: a negative index counts back from the end, and an
    index out of range gives [undefined] (here [None]). *)
Definition at_ {A : Type} (l : list A) (i : Z) : option A :=
  let len := Z.of_nat (List.length l) in
  let k := if (i <? 0)%Z then (len + i)%Z else i in
  if ((k <? 0) || (len <=? k))%Z then None else nth_error l (Z.to_nat k).

(** [Array.prototype.slice(start, end)]: both bounds are relative when
    negative and clamped to the array. *)
Definition slice {A : Type} (l : list A) (start end_ : Z) : list A :=
  let len := Z.of_nat (List.length l) in
  let clamp i := if (i <? 0)%Z then Z.max (len + i) 0 else Z.min i len in
  let k := clamp start in
  let final := clamp end_ in
  firstn (Z.to_nat (Z.max (final - k) 0)) (skipn (Z.to_nat k) l).

End JS.

(** ** Programs over external calls *)

(** What a rejected promise or a thrown exception carries. *)
Inductive Error : Type :=
| TypeError (message : string)
| OutputParserException (message : string)
| ExternalError (message : string).

(** The settlement of an awaited promise. *)
Inductive Settled (A : Type) : Type :=
| Fulfilled (a : A)
| Rejected (e : Error).
Arguments Fulfilled {A} a.
Arguments Rejected {A} e.

Section Programs.

(** [E X] is the signature of the external calls answered by an [X]. *)
Variable E : Type -> Type.

Inductive Prog (R : Type) : Type :=
| Ret (r : R)
| Throw (e : Error)
| Exit (code : Z)
| Vis {X : Type} (e : E X) (k : X -> Prog R).

Arguments Ret {R} r.
Arguments Throw {R} e.
Arguments Exit {R} code.
Arguments Vis {R X} e k.

Fixpoint bind {A B : Type} (p : Prog A) (f : A -> Prog B) : Prog B :=
  match p with
  | Ret a => f a
  | Throw e => Throw e
  | Exit c => Exit c
  | Vis e k => Vis e (fun x => bind (k x) f)
  end.

(** A call whose answer is used as it comes. *)
Definition call {X : Type} (e : E X) : Prog X := Vis e Ret.

(** [await] of a call that returns a promise: a rejection is rethrown. *)
Definition await {X : Type} (e : E (Settled X)) : Prog X :=
  Vis e (fun r => match r with
                  | Fulfilled x => Ret x
                  | Rejected err => Throw err
                  end).

(** [try { await e; ok } catch (error) { handler error }] *)
Definition try_await {X R : Type} (e : E (Settled X))
           (ok : X -> Prog R) (handler : Error -> Prog R) : Prog R :=
  Vis e (fun r => match r with
                  | Fulfilled x => ok x
                  | Rejected err => handler err
                  end).

(** How a run ends. *)
Inductive Outcome (R : Type) : Type :=
| Done (r : R)
| Failed (e : Error)
| Exited (code : Z).
Arguments Done {R} r.
Arguments Failed {R} e.
Arguments Exited {R} code.

(** A logged call, its answer type forgotten. *)
Inductive Call : Type :=
| Called {X : Type} (e : E X).

(** The outside world: a state [W] and an answer to every call. *)
Variable W : Type.
Definition Handler : Type := forall X : Type, E X -> W -> X * W.

Record Run (R : Type) : Type := mkRun
  { outcome : Outcome R;
    world : W;
    calls : list Call }.
Arguments mkRun {R} _ _ _.
Arguments outcome {R} _.
Arguments world {R} _.
Arguments calls {R} _.

Fixpoint run {R : Type} (h : Handler) (p : Prog R) (w : W) : Run R :=
  match p with
  | Ret r => mkRun (Done r) w []
  | Throw e => mkRun (Failed e) w []
  | Exit c => mkRun (Exited c) w []
  | Vis e k =>
      let (x, w') := h _ e w in
      let r := run h (k x) w' in
      mkRun (outcome r) (world r) (Called e :: calls r)
  end.

(** A run continued by [f]: what running a [bind] amounts to. *)
Definition andThen {A B : Type} (h : Handler) (r : Run A) (f : A -> Prog B) : Run B :=
  match outcome r with
  | Done a =>
      let r' := run h (f a) (world r) in
      mkRun (outcome r') (world r') (calls r ++ calls r')
  | Failed e => mkRun (Failed e) (world r) (calls r)
  | Exited c => mkRun (Exited c) (world r) (calls r)
  end.

End Programs.

Arguments Ret {E R} r.
Arguments Throw {E R} e.
Arguments Exit {E R} code.
Arguments Vis {E R X} e k.
Arguments bind {E A B} p f.
Arguments call {E X} e.
Arguments await {E X} e.
Arguments try_await {E X R} e ok handler.
Arguments Done {R} r.
Arguments Failed {R} e.
Arguments Exited {R} code.
Arguments Called {E X} e.
Arguments mkRun {E W R} outcome world calls.
Arguments outcome {E W R} _.
Arguments world {E W R} _.
Arguments calls {E W R} _.
Arguments run {E W R} h p w.
Arguments andThen {E W A B} h r f.

Declare Scope prog_scope.
Delimit Scope prog_scope with prog.
Notation "x <- p ;; q" := (bind p (fun x => q))
  (at level 61, p at next level, right associativity) : prog_scope.
Notation "p ;; q" := (bind p (fun _ => q))
  (at level 61, right associativity) : prog_scope.

Local Open Scope prog_scope.

(** Association lists keyed by names (node names, edge names). *)
Fixpoint lookup {A : Type} (key : string) (l : list (string * A)) : option A :=
  match l with
  | [] => None
  | (k, v) :: l' => if String.eqb k key then Some v else lookup key l'
  end.

(** ** dev/agent.ts: the support routing workflow *)

Module Agent.

(** Messages as the state holds them: the messages reducer coerces a
    message-like object ([{ role: "user", content }]) to the message class
    of its role.  A message carries an id or none: a message built in the
    script ([new SystemMessage(text)], a plain object) has none, a reply of
    the model has the one the model gave it, if any. *)
Inductive BaseMessage : Type :=
| HumanMessage (id : option string) (content : string)
| AIMessage (id : option string) (content : string)
| SystemMessage (id : option string) (content : string)
| ToolMessage (id : option string) (content : string)
| FunctionMessage (id : option string) (content : string)
| ChatMessage (id : option string) (role content : string).

Definition _getType (m : BaseMessage) : string :=
  match m with
  | HumanMessage _ _ => "human"
  | AIMessage _ _ => "ai"
  | SystemMessage _ _ => "system"
  | ToolMessage _ _ => "tool"
  | FunctionMessage _ _ => "function"
  | ChatMessage _ _ _ => "generic"
  end.

(** [m.id] *)
Definition msg_id (m : BaseMessage) : option string :=
  match m with
  | HumanMessage id _ => id
  | AIMessage id _ => id
  | SystemMessage id _ => id
  | ToolMessage id _ => id
  | FunctionMessage id _ => id
  | ChatMessage id _ _ => id
  end.

(** What [llm.invoke] resolves to: an AI message, with the id the model
    gave it. *)
Record AIMessageChunk : Type := mkChunk
  { chunk_id : option string;
    chunk_content : string }.

(** The chunk as an entry of the history. *)
Definition asMessage (r : AIMessageChunk) : BaseMessage :=
  AIMessage (chunk_id r) (chunk_content r).

(** [StateAnnotation]: the messages channel and two last-value channels,
    which hold nothing ([undefined]) until written. *)
Record State : Type := mkState
  { messages : list BaseMessage;
    nextRepresentative : option string;
    refundAuthorized : option bool }.

(** What a node may return for the messages channel: one message or an
    array of messages. *)
Inductive MessagesUpdate : Type :=
| One (m : BaseMessage)
| Many (ms : list BaseMessage).

(** A node's return value: the fields it names. *)
Record Update : Type := mkUpdate
  { u_messages : option MessagesUpdate;
    u_nextRepresentative : option string;
    u_refundAuthorized : option bool }.

(** The calls on [llm].  [Invoke] is [llm.invoke(input)]: a chat model
    answers with an AI message.
    [StructuredInvoke schema name input] is
    [llm.withStructuredOutput(schema, { name }).invoke(input)]: the answer
    is the value the model produced for the schema's one field, before it
    is parsed against the schema. *)
Inductive LlmE : Type -> Type :=
| Invoke (input : list BaseMessage) : LlmE (Settled AIMessageChunk)
| StructuredInvoke (schema : list string) (name : string)
                   (input : list BaseMessage) : LlmE (Settled string).

(** [routingSchema]: an object with the one field [nextRepresentative], a
    [z.enum] of these labels. *)
Definition routingSchema : list string := ["RESPOND"; "CERTIFICATION"].

(** Parsing a value against a [z.enum]. *)
Definition zenum_parse (schema : list string) (raw : string) : Prog LlmE string :=
  if existsb (String.eqb raw) schema
  then Ret raw
  else Throw (OutputParserException "Failed to parse").

(** The structured-output model: the call, then the parse of its answer. *)
Definition structuredOutputModel_invoke (schema : list string) (name : string)
           (input : list BaseMessage) : Prog LlmE string :=
  raw <- await (StructuredInvoke schema name input);;
  zenum_parse schema raw.

(** The structured-output calls of a log: schema, name and input of each. *)
Definition structuredCalls (cs : list (Call LlmE))
  : list (list string * string * list BaseMessage) :=
  flat_map (fun c =>
              match c with
              | Called e =>
                  match e with
                  | Invoke _ => []
                  | StructuredInvoke schema name input => [(schema, name, input)]
                  end
              end) cs.

(** Assistant-authored entries. *)
Definition isAI (m : BaseMessage) : bool := String.eqb (_getType m) "ai".

(** ** The graph engine, as far as this workflow uses it *)

Definition START : string := "__start__".
Definition END : string := "__end__".

Definition Node : Type := State -> Prog LlmE Update.
Definition Router : Type := State -> Prog LlmE string.

Record StateGraph : Type := mkGraph
  { nodes : list (string * Node);
    edges : list (string * string);
    branches : list (string * (Router * list (string * string))) }.

Definition newStateGraph : StateGraph := mkGraph [] [] [].

Definition addNode (name : string) (fn : Node) (g : StateGraph) : StateGraph :=
  mkGraph (nodes g ++ [(name, fn)]) (edges g) (branches g).

Definition addEdge (source target : string) (g : StateGraph) : StateGraph :=
  mkGraph (nodes g) (edges g ++ [(source, target)]) (branches g).

Definition addConditionalEdges (source : string) (router : Router)
           (pathMap : list (string * string)) (g : StateGraph) : StateGraph :=
  mkGraph (nodes g) (edges g) (branches g ++ [(source, (router, pathMap))]).

(** The reducer of the messages channel merges what the node returned
    into the history by id: a message whose id is already in the history
    takes the place of the entry with that id (the last one, should there be
    several), any other message is appended.  A message without an id is
    given a fresh v4 uuid by the reducer; it is kept as [None] here, an id
    equal to no other.  Remove messages, which neither the script nor the
    nodes produce, are not among the message classes. *)
Definition hasId (i : string) (m : BaseMessage) : bool :=
  match msg_id m with
  | Some j => String.eqb j i
  | None => false
  end.

Fixpoint replaceLast (i : string) (m : BaseMessage) (l : list BaseMessage)
  : option (list BaseMessage) :=
  match l with
  | [] => None
  | x :: l' =>
      match replaceLast i m l' with
      | Some l'' => Some (x :: l'')
      | None => if hasId i x then Some (m :: l') else None
      end
  end.

Definition mergeMessage (merged : list BaseMessage) (m : BaseMessage)
  : list BaseMessage :=
  match msg_id m with
  | None => merged ++ [m]
  | Some i =>
      match replaceLast i m merged with
      | Some merged' => merged'
      | None => merged ++ [m]
      end
  end.

Definition messagesStateReducer (old : list BaseMessage)
           (new : MessagesUpdate) : list BaseMessage :=
  fold_left mergeMessage
            match new with
            | One m => [m]
            | Many ms => ms
            end
            old.

Definition lastValue {A : Type} (old new : option A) : option A :=
  match new with
  | Some v => Some v
  | None => old
  end.

Definition applyUpdate (st : State) (u : Update) : State :=
  mkState
    (match u_messages u with
     | Some new => messagesStateReducer (messages st) new
     | None => messages st
     end)
    (lastValue (nextRepresentative st) (u_nextRepresentative u))
    (lastValue (refundAuthorized st) (u_refundAuthorized u)).

(** The node that runs after [node]: through the node's conditional edge
    and its path map when it has one, else along its plain edge. *)
Definition nextNode (g : StateGraph) (node : string) (st : State)
  : Prog LlmE string :=
  match lookup node (branches g) with
  | Some (router, pathMap) =>
      edge <- router st;;
      match lookup edge pathMap with
      | Some target => Ret target
      | None => Throw (ExternalError "Branch condition returned unknown destination")
      end
  | None =>
      match lookup node (edges g) with
      | Some target => Ret target
      | None => Ret END
      end
  end.

(** One step per node, at most [limit] steps; each step yields the node's
    name with its update, as the stream shows them. *)
Fixpoint pregel (limit : nat) (g : StateGraph) (node : string) (st : State)
  : Prog LlmE (State * list (string * Update)) :=
  if String.eqb node END then Ret (st, []) else
  match limit with
  | O => Throw (ExternalError "GraphRecursionError")
  | S limit' =>
      match lookup node (nodes g) with
      | None => Throw (ExternalError "unknown node")
      | Some fn =>
          u <- fn st;;
          let st' := applyUpdate st u in
          next <- nextNode g node st';;
          rest <- pregel limit' g next st';;
          Ret (fst rest, (node, u) :: snd rest)
      end
  end.

Definition recursionLimit : nat := 25.

(** [app.stream(input, config)] on a thread with no checkpoint yet. *)
Definition stream (g : StateGraph) (input : Update)
  : Prog LlmE (State * list (string * Update)) :=
  match lookup START (edges g) with
  | Some entry => pregel recursionLimit g entry (applyUpdate (mkState [] None None) input)
  | None => Throw (ExternalError "Graph must have an entrypoint")
  end.

(** ** The workflow *)

(** [PROMPT] comes from [./prompts]; only the four texts read here. *)
Record Prompts : Type := mkPrompts
  { init_system : string;
    routing_system : string;
    routing_user : string;
    certification_system : string }.

Section Workflow.

Variable PROMPT : Prompts.

Definition initialSupport (state : State) : Prog LlmE Update :=
  supportResponse <-
    await (Invoke (SystemMessage None (init_system PROMPT) :: messages state));;
  let routingMessages :=
    SystemMessage None (routing_system PROMPT)
      :: messages state ++ [HumanMessage None (routing_user PROMPT)] in
  routingResponse <-
    structuredOutputModel_invoke routingSchema "RouteUserRequest" routingMessages;;
  Ret (mkUpdate (Some (Many [asMessage supportResponse]))
                (Some routingResponse)
                None).

Definition certificationSupport (state : State) : Prog LlmE Update :=
  let trimmedHistory := messages state in
  match JS.at_ trimmedHistory (-1) with
  | None => Throw (TypeError "Cannot read properties of undefined (reading '_getType')")
  | Some last =>
      let trimmedHistory :=
        if String.eqb (_getType last) "ai"
        then JS.slice trimmedHistory 0 (-1)
        else trimmedHistory in
      response <-
        await (Invoke (SystemMessage None (certification_system PROMPT)
                         :: trimmedHistory));;
      Ret (mkUpdate (Some (One (asMessage response))) None None)
  end.

(** The function given to [addConditionalEdges]. *)
Definition router (state : State) : Prog LlmE string :=
  match nextRepresentative state with
  | None => Throw (TypeError "Cannot read properties of undefined (reading 'includes')")
  | Some label =>
      if JS.includes label "CERTIFICATION"
      then Ret "certification"
      else Ret "conversational"
  end.

Definition pathMap : list (string * string) :=
  [("certification", "certification_support");
   ("conversational", END)].

Definition workflow : StateGraph :=
  let workflow :=
    addEdge START "initial_support"
      (addNode "certification_support" certificationSupport
         (addNode "initial_support" initialSupport newStateGraph)) in
  let workflow :=
    addConditionalEdges "initial_support" router pathMap workflow in
  addEdge "certification_support" END workflow.

(** The scenario run of the script: one user message. *)
Definition scenario01 : Update :=
  mkUpdate
    (Some (Many [HumanMessage None
                   "'교류전원을 사용하는 전동공구' 는 어떤 KC인증을 받아야해??"]))
    None None.

End Workflow.

(** A model as a test stubs it: every reply call is answered and every
    classification call is answered by [label]. *)
Definition Stubbed {W : Type} (h : Handler LlmE W) (label : string) : Prop :=
  (forall input w, exists reply w',
      h _ (Invoke input) w = (Fulfilled reply, w')) /\
  (forall schema name input w, exists w',
      h _ (StructuredInvoke schema name input) w = (Fulfilled label, w')).

(** A stub model for examples: a fixed reply, without an id, and a fixed
    label. *)
Definition stubModel (reply label : string) : Handler LlmE unit :=
  fun X e w =>
    match e in LlmE X return X * unit with
    | Invoke _ => (Fulfilled (mkChunk None reply), w)
    | StructuredInvoke _ _ _ => (Fulfilled label, w)
    end.

Definition stubPrompts : Prompts :=
  mkPrompts "INIT" "ROUTING" "ROUTE?" "CERT".

End Agent.

(** ** sqltool/index.ts: the SQL assistant bootstrap *)

Module SqlTool.

(** The double quote, which the prompt text holds once. *)
Definition dquote : string := String (ascii_of_nat 34) EmptyString.

(** [systemPrompt]: the template literal, with its escapes resolved. *)
Definition systemPrompt : string :=
  ("
You are a helpful assistant that can answer questions about the 'kc_certification' of 'product' based on 'certification' table. 
Answer Users question based on the following **DB SCHEMA** AND **RULES**. 

## RULES:
ALWAYS reply in korean. 
ALWAYS search the 'product' and 'category' in 'certification' table using exact match first.
If the search keyword is not found, retry search after removing spaces or adjusting spacing. 
ALWAYS SQL query keyword should use ' instead of " ++ dquote ++ ".

## DB SCHEMA:
 'id' INTEGER
 'created_at' DATETIME
 'product' TEXT
 'category' TEXT
 'radio_certification' TEXT
 'industry' TEXT
 'condition' TEXT
 'examples' TEXT
 'kc_certification' TEXT

## Example Query:
 완구는 어떤 KC인증을 받아야해?

## Answer:
 완구는 [어린이제품] 카테고리에 속하며 [안전확인] 인증을 받아야합니다.
")%string.

Section Bootstrap.

(** The objects of the SQL and agent libraries. *)
Variables Db Toolkit Tool AgentExecutor : Type.

Inductive SqlE : Type -> Type :=
| DataSourceInitialize (url : option string) : SqlE (Settled unit)
| ConsoleLog (line : string) : SqlE unit
| ConsoleError (line : string) (error : Error) : SqlE unit
| FromDataSourceParams : SqlE (Settled Db)
| NewSqlToolkit (db : Db) : SqlE Toolkit
| GetTools (toolkit : Toolkit) : SqlE (list Tool)
| ConsoleLogTools (tools : list Tool) : SqlE unit
| CreateReactAgent (tools : list Tool) : SqlE AgentExecutor.

(** [process.env.NEXT_PUBLIC_SUPABASE_DB_URL] *)
Variable NEXT_PUBLIC_SUPABASE_DB_URL : option string.

(** The script, top to bottom. *)
Definition main : Prog SqlE string :=
  try_await (DataSourceInitialize NEXT_PUBLIC_SUPABASE_DB_URL)
    (fun _ => call (ConsoleLog "Supabase 데이터베이스에 성공적으로 연결되었습니다."))
    (fun error =>
       call (ConsoleError "데이터베이스 연결 중 오류 발생: " error);;
       Exit 1);;
  db <- await FromDataSourceParams;;
  toolkit <- call (NewSqlToolkit db);;
  tools <- call (GetTools toolkit);;
  call (ConsoleLogTools tools);;
  agentExecutor <- call (CreateReactAgent tools);;
  Ret systemPrompt.

(** The calls that build the database wrapper, the toolkit, the tool set
    and the agent. *)
Definition constructs (c : Call SqlE) : bool :=
  match c with
  | Called e =>
      match e with
      | FromDataSourceParams => true
      | NewSqlToolkit _ => true
      | GetTools _ => true
      | CreateReactAgent _ => true
      | _ => false
      end
  end.

End Bootstrap.

Arguments DataSourceInitialize {Db Toolkit Tool AgentExecutor} url.
Arguments ConsoleLog {Db Toolkit Tool AgentExecutor} line.
Arguments ConsoleError {Db Toolkit Tool AgentExecutor} line error.
Arguments FromDataSourceParams {Db Toolkit Tool AgentExecutor}.
Arguments NewSqlToolkit {Db Toolkit Tool AgentExecutor} db.
Arguments GetTools {Db Toolkit Tool AgentExecutor} toolkit.
Arguments ConsoleLogTools {Db Toolkit Tool AgentExecutor} tools.
Arguments CreateReactAgent {Db Toolkit Tool AgentExecutor} tools.
Arguments constructs {Db Toolkit Tool AgentExecutor} c.

(** A stub of the outside for examples: the connection answers [connect],
    every library object is a token. *)
Definition stubWorld (connect : Settled unit) : Handler (SqlE unit unit unit unit) unit :=
  fun X e w =>
    match e in SqlE _ _ _ _ X return X * unit with
    | DataSourceInitialize _ => (connect, w)
    | ConsoleLog _ => (tt, w)
    | ConsoleError _ _ => (tt, w)
    | FromDataSourceParams => (Fulfilled tt, w)
    | NewSqlToolkit _ => (tt, w)
    | GetTools _ => ([tt], w)
    | ConsoleLogTools _ => (tt, w)
    | CreateReactAgent _ => (tt, w)
    end.

End SqlTool.

(** * Facts *)

(** ** Strings and arrays *)

Module JSFacts.
Import JS.

Lemma startsWith_true_iff (t s : string) :
  startsWith s t = true <-> exists post, s = (t ++ post)%string.
Proof.
  revert s; induction t as [|b t IH]; intros s; simpl.
  - split; [intros _; now exists s | reflexivity].
  - destruct s as [|a s].
    + split; [discriminate | intros [post H]; discriminate].
    + rewrite andb_true_iff, Ascii.eqb_eq, IH. split.
      * intros [-> [post ->]]. now exists post.
      * intros [post H]. injection H as -> ->. split; [reflexivity | now exists post].
Qed.

Lemma includes_true_iff (t s : string) :
  includes s t = true <-> Substring t s.
Proof.
  unfold Substring. induction s as [|a s IH].
  - simpl. rewrite orb_false_r, startsWith_true_iff. split.
    + intros [post H]. now exists EmptyString, post.
    + intros [pre [post H]]. destruct pre; [now exists post | discriminate].
  - change (includes (String a s) t)
      with (startsWith (String a s) t || includes s t).
    rewrite orb_true_iff, startsWith_true_iff, IH. split.
    + intros [[post H] | [pre [post H]]].
      * now exists EmptyString, post.
      * exists (String a pre), post. simpl. now rewrite H.
    + intros [pre [post H]]. destruct pre as [|b pre].
      * left. now exists post.
      * right. simpl in H. injection H as _ H. now exists pre, post.
Qed.

Lemma includes_false_iff (t s : string) :
  includes s t = false <-> ~ Substring t s.
Proof.
  rewrite <- includes_true_iff.
  destruct (includes s t); split; intros H; congruence.
Qed.

Section Arrays.
Context {A : Type}.

Lemma at_last (l : list A) (x : A) : at_ (l ++ [x]) (-1) = Some x.
Proof.
  unfold at_. rewrite length_app. cbn [List.length Z.ltb Z.compare].
  replace (Z.of_nat (List.length l + 1) + -1)%Z with (Z.of_nat (List.length l)) by lia.
  destruct (Z.ltb_spec (Z.of_nat (List.length l)) 0); [lia|].
  destruct (Z.leb_spec (Z.of_nat (List.length l + 1)) (Z.of_nat (List.length l))); [lia|].
  cbn [orb]. rewrite Nat2Z.id, nth_error_app2 by lia.
  now rewrite Nat.sub_diag.
Qed.

Lemma at_empty (i : Z) : at_ (@nil A) i = None.
Proof.
  unfold at_. cbn [List.length Z.of_nat].
  destruct (Z.ltb_spec i 0).
  - replace (0 + i <? 0)%Z with true by (symmetry; apply Z.ltb_lt; lia).
    reflexivity.
  - replace (i <? 0)%Z with false by (symmetry; apply Z.ltb_ge; lia).
    replace (0 <=? i)%Z with true by (symmetry; apply Z.leb_le; lia).
    reflexivity.
Qed.

Lemma slice_drop_last (l : list A) (x : A) : slice (l ++ [x]) 0 (-1) = l.
Proof.
  unfold slice. rewrite length_app. cbn [List.length Z.ltb Z.compare].
  rewrite Z.min_l by lia.
  replace (Z.max (Z.of_nat (List.length l + 1) + -1) 0)
    with (Z.of_nat (List.length l)) by lia.
  rewrite Z.sub_0_r, Z.max_l by lia.
  cbn [Z.to_nat skipn]. rewrite Nat2Z.id.
  rewrite firstn_app, firstn_all, Nat.sub_diag. cbn [firstn].
  apply app_nil_r.
Qed.

(** Every array is empty or ends in a last entry. *)
Lemma array_cases (l : list A) : l = [] \/ exists l' x, l = l' ++ [x].
Proof.
  destruct l as [|a l]; [now left | right].
  destruct (exists_last (l := a :: l)) as [l' [x H]]; [discriminate|].
  now exists l', x.
Qed.
End Arrays.

End JSFacts.

(** ** Running programs *)

Section RunFacts.
Context {E : Type -> Type} {W : Type}.
Variable h : Handler E W.

Lemma run_eta {A : Type} (r : Run E W A) :
  r = mkRun (outcome r) (world r) (calls r).
Proof. now destruct r. Qed.

Lemma run_bind {A B : Type} (p : Prog E A) (f : A -> Prog E B) (w : W) :
  run h (bind p f) w = andThen h (run h p w) f.
Proof.
  revert w; induction p as [a|e|c|X e k IH]; intros w; simpl.
  - unfold andThen; simpl. apply run_eta.
  - reflexivity.
  - reflexivity.
  - destruct (h X e w) as [x w']. rewrite IH. unfold andThen; simpl.
    now destruct (outcome (run h (k x) w')).
Qed.

Lemma run_await {X : Type} (e : E (Settled X)) (w : W) :
  run h (await e) w =
  match h _ e w with
  | (Fulfilled x, w') => mkRun (Done x) w' [Called e]
  | (Rejected err, w') => mkRun (Failed err) w' [Called e]
  end.
Proof. simpl. now destruct (h _ e w) as [[x|err] w']. Qed.

Lemma run_call {X : Type} (e : E X) (w : W) :
  run h (call e) w =
  let (x, w') := h _ e w in mkRun (Done x) w' [Called e].
Proof. simpl. now destruct (h _ e w). Qed.

Lemma andThen_done {A B : Type} (a : A) (w : W) (cs : list (Call E))
      (f : A -> Prog E B) :
  andThen h (mkRun (Done a) w cs) f =
  mkRun (outcome (run h (f a) w)) (world (run h (f a) w))
        (cs ++ calls (run h (f a) w)).
Proof. reflexivity. Qed.

Lemma andThen_failed {A B : Type} (e : Error) (w : W) (cs : list (Call E))
      (f : A -> Prog E B) :
  andThen h (mkRun (Failed e) w cs) f = mkRun (Failed e) w cs.
Proof. reflexivity. Qed.

End RunFacts.

(** ** The support routing workflow *)

Module AgentSpec.
Import Agent JSFacts.

Section Steps.
Variable PROMPT : Prompts.
Context {W : Type}.
Variable h : Handler LlmE W.

(** The certification step on a history with a last entry: one awaited
    call on the history, trimmed or not by the type of that entry. *)
Lemma certificationSupport_last (history : list BaseMessage) (last : BaseMessage)
      (nr : option string) (ra : option bool) :
  certificationSupport PROMPT (mkState (history ++ [last]) nr ra) =
  (response <-
     await (Invoke (SystemMessage None (certification_system PROMPT)
                      :: (if String.eqb (_getType last) "ai"
                          then history
                          else history ++ [last])));;
   Ret (mkUpdate (Some (One (asMessage response))) None None)).
Proof.
  unfold certificationSupport. cbn [messages].
  rewrite at_last, slice_drop_last. reflexivity.
Qed.

(** The run of the certification step on such a history. *)
Lemma run_certificationSupport_last (w : W) (history : list BaseMessage)
      (last : BaseMessage) (nr : option string) (ra : option bool) :
  let input :=
    SystemMessage None (certification_system PROMPT)
      :: (if isAI last then history else history ++ [last]) in
  run h (certificationSupport PROMPT (mkState (history ++ [last]) nr ra)) w =
  match h _ (Invoke input) w with
  | (Fulfilled c, w') =>
      mkRun (Done (mkUpdate (Some (One (asMessage c))) None None)) w'
            [Called (Invoke input)]
  | (Rejected e, w') => mkRun (Failed e) w' [Called (Invoke input)]
  end.
Proof.
  intros input. rewrite certificationSupport_last, run_bind, run_await.
  fold (isAI last). fold input.
  destruct (h _ (Invoke input) w) as [[c|e] w']; reflexivity.
Qed.

(** The run of the initial step, by the answers to its two calls. *)
Lemma run_initialSupport (w : W) (st : State) :
  let first :=
    Invoke (SystemMessage None (init_system PROMPT) :: messages st) in
  let classification :=
    StructuredInvoke routingSchema "RouteUserRequest"
      (SystemMessage None (routing_system PROMPT)
         :: messages st ++ [HumanMessage None (routing_user PROMPT)]) in
  run h (initialSupport PROMPT st) w =
  match h _ first w with
  | (Rejected e, w1) => mkRun (Failed e) w1 [Called first]
  | (Fulfilled c, w1) =>
      match h _ classification w1 with
      | (Rejected e, w2) =>
          mkRun (Failed e) w2 [Called first; Called classification]
      | (Fulfilled raw, w2) =>
          if existsb (String.eqb raw) routingSchema
          then mkRun (Done (mkUpdate (Some (Many [asMessage c])) (Some raw) None))
                     w2 [Called first; Called classification]
          else mkRun (Failed (OutputParserException "Failed to parse"))
                     w2 [Called first; Called classification]
      end
  end.
Proof.
  intros first classification.
  unfold initialSupport, structuredOutputModel_invoke, zenum_parse, await.
  fold first. fold classification. cbn [bind run].
  destruct (h _ first w) as [[c|e] w1]; [|reflexivity].
  cbn [bind run].
  destruct (h _ classification w1) as [[raw|e] w2]; [|reflexivity].
  cbn [bind run outcome world calls].
  destruct (existsb (String.eqb raw) routingSchema); reflexivity.
Qed.

(** A value that parses against [routingSchema] is one of its labels. *)
Lemma routingSchema_parses (raw : string) :
  existsb (String.eqb raw) routingSchema = true ->
  raw = "RESPOND" \/ raw = "CERTIFICATION".
Proof.
  unfold routingSchema. cbn [existsb].
  rewrite !orb_true_iff, !String.eqb_eq. intuition discriminate.
Qed.

(** C1. For every history whose last entry is an assistant message, the
    certification step invokes the model once, on the certification system
    prompt followed by the history without that one trailing entry; when
    the last entry is a user message the model receives the whole history
    after the system prompt. *)
Theorem certificationSupport_trims_trailing_ai_only
        (w : W) (history : list BaseMessage) (id : option string) (c : string)
        (nr : option string) (ra : option bool) :
  calls (run h (certificationSupport PROMPT
                  (mkState (history ++ [AIMessage id c]) nr ra)) w)
  = [Called (Invoke (SystemMessage None (certification_system PROMPT) :: history))]
  /\
  calls (run h (certificationSupport PROMPT
                  (mkState (history ++ [HumanMessage id c]) nr ra)) w)
  = [Called (Invoke (SystemMessage None (certification_system PROMPT)
                       :: history ++ [HumanMessage id c]))].
Proof.
  split; rewrite certificationSupport_last, run_bind, run_await;
    cbn [_getType String.eqb Ascii.eqb Bool.eqb andb];
    match goal with
    | |- context [h _ ?e w] => destruct (h _ e w) as [[reply|err] w']
    end; reflexivity.
Qed.

(** C9. On the empty history the certification step throws a TypeError
    before any call on the model; on every other history the step gets
    as far as invoking the model. *)
Theorem certificationSupport_empty_history_throws
        (w : W) (msgs : list BaseMessage)
        (nr : option string) (ra : option bool) :
  match msgs with
  | [] =>
      exists message,
        run h (certificationSupport PROMPT (mkState msgs nr ra)) w
        = mkRun (Failed (TypeError message)) w []
  | _ :: _ =>
      exists input,
        calls (run h (certificationSupport PROMPT (mkState msgs nr ra)) w)
        = [Called (Invoke input)]
  end.
Proof.
  destruct (array_cases msgs) as [-> | [history [last ->]]].
  - eexists. reflexivity.
  - assert (exists input,
               calls (run h (certificationSupport PROMPT
                               (mkState (history ++ [last]) nr ra)) w)
               = [Called (Invoke input)]) as H.
    { rewrite certificationSupport_last, run_bind, run_await.
      eexists.
      match goal with
      | |- context [h _ ?e w] => destruct (h _ e w) as [[reply|err] w']
      end; reflexivity. }
    destruct (history ++ [last]) eqn:Heq; [|exact H].
    now destruct history.
Qed.

End Steps.

(** ** The router *)

Section Routing.
Variable PROMPT : Prompts.

Lemma router_label (label : string) (msgs : list BaseMessage) (ra : option bool) :
  router (mkState msgs (Some label) ra) =
  Ret (if JS.includes label "CERTIFICATION"
       then "certification" else "conversational").
Proof. unfold router. cbn [nextRepresentative]. now destruct (JS.includes _ _). Qed.

(** After the initial node, the router's edge is looked up in the path map. *)
Lemma nextNode_initial_support (st : State) :
  nextNode (workflow PROMPT) "initial_support" st =
  (edge <- router st;;
   match lookup edge pathMap with
   | Some target => Ret target
   | None => Throw (ExternalError "Branch condition returned unknown destination")
   end).
Proof. reflexivity. Qed.

(** C2. On the label CERTIFICATION the router returns the edge
    "certification", which the workflow maps to the certification step;
    on every other label of the enumeration (RESPOND) it returns the edge
    "conversational", which the workflow maps to the end. *)
Theorem router_enumerated_labels
        (label : string) (msgs : list BaseMessage) (ra : option bool)
        (Hin : In label routingSchema) :
  let st := mkState msgs (Some label) ra in
  (label = "CERTIFICATION" ->
   router st = Ret "certification" /\
   nextNode (workflow PROMPT) "initial_support" st = Ret "certification_support")
  /\
  (label <> "CERTIFICATION" ->
   router st = Ret "conversational" /\
   nextNode (workflow PROMPT) "initial_support" st = Ret END).
Proof.
  intros st. subst st. rewrite nextNode_initial_support, router_label.
  destruct Hin as [<- | [<- | []]]; split; intros H;
    try discriminate H; try (now elim H); split; reflexivity.
Qed.

(** C10. The router decides by containment: every label in which
    "CERTIFICATION" occurs, such as NOT_CERTIFICATION, which is no label
    of the enumeration, gets the certification edge, and every label in
    which it does not occur gets the conversational edge. *)
Theorem router_decides_by_containment
        (label : string) (msgs : list BaseMessage) (ra : option bool) :
  (JS.Substring "CERTIFICATION" label ->
   router (mkState msgs (Some label) ra) = Ret "certification")
  /\
  (~ JS.Substring "CERTIFICATION" label ->
   router (mkState msgs (Some label) ra) = Ret "conversational")
  /\
  (~ In "NOT_CERTIFICATION" routingSchema /\
   router (mkState msgs (Some "NOT_CERTIFICATION") ra) = Ret "certification").
Proof.
  rewrite router_label. repeat split.
  - intros H. apply includes_true_iff in H. now rewrite H.
  - intros H. apply includes_false_iff in H. now rewrite H.
  - cbn [In routingSchema]. intuition discriminate.
Qed.

(** C3, as the code has it. The router's else branch is a fallback: every
    label outside the enumeration is still mapped to one of the two edges
    of the path map, to "certification" exactly when "CERTIFICATION"
    occurs in it and to "conversational" otherwise. *)
Theorem router_unlisted_label_falls_through
        (label : string) (msgs : list BaseMessage) (ra : option bool)
        (Hout : ~ In label routingSchema) :
  exists edge target,
    router (mkState msgs (Some label) ra) = Ret edge /\
    lookup edge pathMap = Some target /\
    nextNode (workflow PROMPT) "initial_support" (mkState msgs (Some label) ra)
      = Ret target /\
    (edge = "certification" \/ edge = "conversational") /\
    (edge = "certification" <-> JS.Substring "CERTIFICATION" label).
Proof.
  rewrite nextNode_initial_support, router_label.
  pose proof (includes_true_iff "CERTIFICATION" label) as Hs.
  destruct (JS.includes label "CERTIFICATION").
  - exists "certification", "certification_support".
    split; [reflexivity|]. split; [reflexivity|]. split; [reflexivity|].
    split; [now left|]. split; [intros _; now apply Hs | reflexivity].
  - exists "conversational", END.
    split; [reflexivity|]. split; [reflexivity|]. split; [reflexivity|].
    split; [now right|]. split; [discriminate|].
    intros H. apply Hs in H. discriminate H.
Qed.

End Routing.

(** ** The steps and the whole run *)

Section Runs.
Variable PROMPT : Prompts.
Context {W : Type}.
Variable h : Handler LlmE W.

(** C6. The classification call of the initial step, made once the reply
    call has been answered, carries the routing schema (the enumeration
    RESPOND, CERTIFICATION) and exactly this input: the routing system
    prompt, the message history in order, the routing instruction as the
    last, human, turn.  A step that completes carries one of the two
    labels. *)
Theorem initialSupport_classification_input (w : W) (st : State) :
  let r := run h (initialSupport PROMPT st) w in
  structuredCalls (calls r) =
  match fst (h _ (Invoke (SystemMessage None (init_system PROMPT) :: messages st)) w) with
  | Fulfilled _ =>
      [(["RESPOND"; "CERTIFICATION"], "RouteUserRequest",
        [SystemMessage None (routing_system PROMPT)]
          ++ messages st
          ++ [HumanMessage None (routing_user PROMPT)])]
  | Rejected _ => []
  end
  /\
  match outcome r with
  | Done u =>
      u_nextRepresentative u = Some "RESPOND" \/
      u_nextRepresentative u = Some "CERTIFICATION"
  | Failed _ => True
  | Exited _ => False
  end.
Proof.
  intros r. subst r. rewrite (run_initialSupport PROMPT h).
  destruct (h _ (Invoke _) w) as [[c|e] w1]; cbn [fst]; [|split; [reflexivity | exact I]].
  destruct (h _ (StructuredInvoke _ _ _) w1) as [[raw|e] w2];
    [|split; [reflexivity | exact I]].
  destruct (existsb (String.eqb raw) routingSchema) eqn:Hparse;
    [|split; [reflexivity | exact I]].
  split; [reflexivity|].
  cbn [outcome u_nextRepresentative].
  destruct (routingSchema_parses raw Hparse) as [-> | ->]; [now left | now right].
Qed.

(** C8. The update of the initial step names the messages and the
    nextRepresentative fields and nothing else; the update of the
    certification step names the messages field and nothing else.
    Merged into the state, neither changes refundAuthorized, and the
    certification step's leaves nextRepresentative as it was. *)
Theorem steps_write_only_their_fields (w : W) (st : State) :
  match outcome (run h (initialSupport PROMPT st) w) with
  | Done u =>
      (exists id reply label,
          u = mkUpdate (Some (Many [AIMessage id reply])) (Some label) None) /\
      refundAuthorized (applyUpdate st u) = refundAuthorized st
  | Failed _ => True
  | Exited _ => False
  end
  /\
  match outcome (run h (certificationSupport PROMPT st) w) with
  | Done u =>
      (exists id reply, u = mkUpdate (Some (One (AIMessage id reply))) None None) /\
      refundAuthorized (applyUpdate st u) = refundAuthorized st /\
      nextRepresentative (applyUpdate st u) = nextRepresentative st
  | Failed _ => True
  | Exited _ => False
  end.
Proof.
  split.
  - rewrite (run_initialSupport PROMPT h).
    destruct (h _ (Invoke _) w) as [[c|e] w1]; [|exact I].
    destruct (h _ (StructuredInvoke _ _ _) w1) as [[raw|e] w2]; [|exact I].
    destruct (existsb (String.eqb raw) routingSchema); [|exact I].
    cbn [outcome]. split; [now exists (chunk_id c), (chunk_content c), raw | reflexivity].
  - destruct st as [msgs nr ra].
    destruct (array_cases msgs) as [-> | [history [last ->]]]; [exact I|].
    rewrite (run_certificationSupport_last PROMPT h).
    destruct (h _ (Invoke _) w) as [[c|e] w1]; [|exact I].
    cbn [outcome].
    split; [now exists (chunk_id c), (chunk_content c) | split; reflexivity].
Qed.

(** The first step of a run from a node other than the end. *)
Lemma pregel_step (limit : nat) (g : StateGraph) (node : string)
      (fn : Node) (st : State) :
  String.eqb node END = false ->
  lookup node (nodes g) = Some fn ->
  pregel (S limit) g node st =
  (u <- fn st;;
   next <- nextNode g node (applyUpdate st u);;
   rest <- pregel limit g next (applyUpdate st u);;
   Ret (fst rest, (node, u) :: snd rest)).
Proof. intros Hnode Hfn. cbn [pregel]. now rewrite Hnode, Hfn. Qed.

End Runs.

(** ** Instances on concrete inputs *)

(** The routing schema admits a stubbed answer, and the initial step then
    completes with it. *)
Example initialSupport_completes :
  outcome (run (stubModel "reply" "RESPOND")
               (initialSupport stubPrompts
                (mkState [HumanMessage None "hello"] None None)) tt)
  = Done (mkUpdate (Some (Many [AIMessage None "reply"])) (Some "RESPOND") None).
Proof. reflexivity. Qed.

Lemma stubModel_Stubbed (reply label : string) : Stubbed (stubModel reply label) label.
Proof.
  split.
  - intros input w. now exists (mkChunk None reply), w.
  - intros schema name input w. now exists w.
Qed.

(** C2 on the label RESPOND. *)
Lemma router_enumerated_labels_witness :
  In "RESPOND" routingSchema /\
  "RESPOND" <> "CERTIFICATION" /\
  router (mkState [] (Some "RESPOND") None) = Ret "conversational" /\
  nextNode (workflow stubPrompts) "initial_support"
           (mkState [] (Some "RESPOND") None) = Ret END.
Proof.
  assert (In "RESPOND" routingSchema) as Hin by (simpl; auto).
  assert ("RESPOND" <> "CERTIFICATION") as Hne by discriminate.
  split; [exact Hin|]. split; [exact Hne|].
  exact (proj2 (router_enumerated_labels stubPrompts "RESPOND" [] None Hin) Hne).
Defined.

(** C3 as the spec states it fails on the label REFUND, which is outside
    the enumeration and which the router maps to the conversational edge. *)
Lemma router_unlisted_label_counterexample :
  ~ In "REFUND" routingSchema /\
  router (mkState [] (Some "REFUND") None) = Ret "conversational" /\
  nextNode (workflow stubPrompts) "initial_support"
           (mkState [] (Some "REFUND") None) = Ret END.
Proof.
  split; [|split; reflexivity].
  simpl. intuition discriminate.
Qed.

Lemma REFUND_unlisted : ~ In "REFUND" routingSchema.
Proof. simpl. intuition discriminate. Defined.

(** C3, amended, on the label REFUND. *)
Lemma router_unlisted_label_falls_through_witness :
  ~ In "REFUND" routingSchema /\
  exists edge target,
    router (mkState [] (Some "REFUND") None) = Ret edge /\
    lookup edge pathMap = Some target /\
    nextNode (workflow stubPrompts) "initial_support"
             (mkState [] (Some "REFUND") None) = Ret target /\
    (edge = "certification" \/ edge = "conversational") /\
    (edge = "certification" <-> JS.Substring "CERTIFICATION" "REFUND").
Proof.
  split; [exact REFUND_unlisted|].
  exact (router_unlisted_label_falls_through stubPrompts "REFUND" [] None REFUND_unlisted).
Defined.

(** C10 on the label NOT_CERTIFICATION. *)
Lemma router_decides_by_containment_witness :
  JS.Substring "CERTIFICATION" "NOT_CERTIFICATION" /\
  router (mkState [] (Some "NOT_CERTIFICATION") None) = Ret "certification".
Proof.
  assert (JS.Substring "CERTIFICATION" "NOT_CERTIFICATION") as Hsub
      by (exists "NOT_", EmptyString; reflexivity).
  split; [exact Hsub|].
  exact (proj1 (router_decides_by_containment "NOT_CERTIFICATION" [] None) Hsub).
Defined.

End AgentSpec.

(** ** The SQL assistant bootstrap *)

Module SqlToolSpec.
Import SqlTool JSFacts.

Section Bootstrap.
Variables Db Toolkit Tool AgentExecutor : Type.
Variable url : option string.
Context {W : Type}.
Variable h : Handler (SqlE Db Toolkit Tool AgentExecutor) W.

(** C4. When the connection attempt fails, the script logs the error,
    exits with status 1 and makes no further call: neither the database
    wrapper nor the toolkit nor the tool set is built. *)
Theorem bootstrap_connection_failure_exits (w w' : W) (error : Error)
        (Hfail : h _ (DataSourceInitialize url) w = (Rejected error, w')) :
  let r := run h (main Db Toolkit Tool AgentExecutor url) w in
  outcome r = Exited 1 /\
  calls r = [Called (DataSourceInitialize url);
             Called (ConsoleError "데이터베이스 연결 중 오류 발생: " error)] /\
  existsb constructs (calls r) = false.
Proof.
  intros r. subst r. unfold main, try_await, call.
  cbn [bind run]. rewrite Hfail. cbn [bind run].
  destruct (h _ (ConsoleError _ error) w') as [[] w''].
  cbn [bind run outcome calls]. repeat split.
Qed.

End Bootstrap.

(** C7. The system prompt holds, word for word, the rule that answers are
    in Korean and the rule that the certification table is searched by
    exact match first. *)
Theorem systemPrompt_directives :
  JS.Substring "ALWAYS reply in korean." systemPrompt /\
  JS.Substring
    "ALWAYS search the 'product' and 'category' in 'certification' table using exact match first."
    systemPrompt.
Proof. split; apply includes_true_iff; vm_compute; reflexivity. Qed.

(** C4 on a connection that is refused. *)
Lemma bootstrap_connection_failure_exits_witness :
  let h := stubWorld (Rejected (ExternalError "ECONNREFUSED")) in
  let r := run h (main unit unit unit unit None) tt in
  h _ (DataSourceInitialize None) tt = (Rejected (ExternalError "ECONNREFUSED"), tt) /\
  outcome r = Exited 1 /\
  calls r = [Called (DataSourceInitialize None);
             Called (ConsoleError "데이터베이스 연결 중 오류 발생: "
                                  (ExternalError "ECONNREFUSED"))] /\
  existsb constructs (calls r) = false.
Proof.
  split; [reflexivity|].
  exact (bootstrap_connection_failure_exits
           unit unit unit unit None
           (stubWorld (Rejected (ExternalError "ECONNREFUSED")))
           tt tt (ExternalError "ECONNREFUSED") eq_refl).
Defined.

(** With the connection established the script goes on to build the tools. *)
Example bootstrap_connected_builds_tools :
  existsb constructs
          (calls (run (stubWorld (Fulfilled tt)) (main unit unit unit unit None) tt))
  = true.
Proof. reflexivity. Qed.

End SqlToolSpec.


(** * Further properties of the two scripts *)

(** ** The workflow as a whole *)

Module AgentRuns.
Import Agent JSFacts AgentSpec.

(** A model that answers its calls from a script: the world is the list of
    answers still to give, one per call, whatever the call; a reply is the
    scripted text without an id; past the end of the script a call is
    rejected. *)
Definition scriptedModel : Handler LlmE (list (Settled string)) :=
  fun X e w =>
    match e in LlmE X return X * list (Settled string) with
    | Invoke _ =>
        match w with
        | Fulfilled text :: w' => (Fulfilled (mkChunk None text), w')
        | Rejected err :: w' => (Rejected err, w')
        | [] => (Rejected (ExternalError "no answer"), [])
        end
    | StructuredInvoke _ _ _ =>
        match w with
        | a :: w' => (a, w')
        | [] => (Rejected (ExternalError "no answer"), [])
        end
    end.

(** A model that classifies as CERTIFICATION and gives every reply the same
    id; the world counts the replies given. *)
Definition sameIdModel (id : string) : Handler LlmE nat :=
  fun X e w =>
    match e in LlmE X return X * nat with
    | Invoke _ =>
        (Fulfilled (mkChunk (Some id) (if Nat.eqb w 0 then "first" else "second")),
         S w)
    | StructuredInvoke _ _ _ => (Fulfilled "CERTIFICATION", w)
    end.

(** A model none of whose calls is rejected. *)
Definition NeverRejects {W : Type} (h : Handler LlmE W) : Prop :=
  (forall input w, exists reply w',
      h _ (Invoke input) w = (Fulfilled reply, w')) /\
  (forall schema name input w, exists raw w',
      h _ (StructuredInvoke schema name input) w = (Fulfilled raw, w')).

(** The state a run starts from: the input merged into the empty channels. *)
Definition initialState (input : Update) : State :=
  applyUpdate (mkState [] None None) input.

(** An id that is not yet in a history: none at all, or one that no entry
    has. *)
Definition freshId (id : option string) (l : list BaseMessage) : bool :=
  match id with
  | None => true
  | Some i => negb (existsb (hasId i) l)
  end.

(** What the certification step passes on of a history: the history without
    its last entry when that entry is the assistant's. *)
Definition trimHistory (msgs : list BaseMessage) : list BaseMessage :=
  match JS.at_ msgs (-1) with
  | Some last =>
      if String.eqb (_getType last) "ai" then JS.slice msgs 0 (-1) else msgs
  | None => msgs
  end.

(** *** Merging by id *)

Lemma replaceLast_absent (i : string) (m : BaseMessage) (l : list BaseMessage) :
  existsb (hasId i) l = false -> replaceLast i m l = None.
Proof.
  induction l as [|x l IH]; [reflexivity|].
  cbn [existsb replaceLast]. intros H. apply orb_false_iff in H as [Hx Hl].
  now rewrite (IH Hl), Hx.
Qed.

Lemma replaceLast_length (i : string) (m : BaseMessage) (l l' : list BaseMessage) :
  replaceLast i m l = Some l' -> List.length l' = List.length l.
Proof.
  revert l'. induction l as [|x l IH]; intros l'; cbn [replaceLast]; [discriminate|].
  destruct (replaceLast i m l) as [l''|].
  - intros [= <-]. cbn [List.length]. now rewrite (IH l'' eq_refl).
  - destruct (hasId i x); [|discriminate]. now intros [= <-].
Qed.

Lemma replaceLast_In (i : string) (m : BaseMessage) (l l' : list BaseMessage) :
  replaceLast i m l = Some l' ->
  In m l' /\ forall x, In x l' -> In x l \/ x = m.
Proof.
  revert l'. induction l as [|x l IH]; intros l'; cbn [replaceLast]; [discriminate|].
  destruct (replaceLast i m l) as [l''|].
  - intros [= <-]. destruct (IH l'' eq_refl) as [Hin Hsub]. split.
    + now right.
    + intros y [<- | Hy]; [left; now left|].
      destruct (Hsub y Hy) as [H | H]; [left; now right | now right].
  - destruct (hasId i x); [|discriminate]. intros [= <-]. split.
    + now left.
    + intros y [<- | Hy]; [now right | left; now right].
Qed.

Lemma mergeMessage_fresh (l : list BaseMessage) (m : BaseMessage) :
  freshId (msg_id m) l = true -> mergeMessage l m = l ++ [m].
Proof.
  unfold freshId, mergeMessage. destruct (msg_id m) as [i|]; [|reflexivity].
  intros H. apply negb_true_iff in H. now rewrite (replaceLast_absent i m l H).
Qed.

(** A merge keeps the history's length or adds one entry, the merged
    message is in the result, and nothing else is new. *)
Lemma mergeMessage_spec (l : list BaseMessage) (m : BaseMessage) :
  (List.length l <= List.length (mergeMessage l m) <= List.length l + 1)%nat /\
  In m (mergeMessage l m) /\
  forall x, In x (mergeMessage l m) -> In x l \/ x = m.
Proof.
  assert ((List.length l <= List.length (l ++ [m]) <= List.length l + 1)%nat /\
          In m (l ++ [m]) /\
          forall x, In x (l ++ [m]) -> In x l \/ x = m) as Happ.
  { rewrite length_app. cbn [List.length]. split; [lia|]. split.
    - apply in_or_app. right. now left.
    - intros x Hx. apply in_app_or in Hx as [Hx | [<- | []]]; [now left | now right]. }
  unfold mergeMessage. destruct (msg_id m) as [i|]; [|exact Happ].
  destruct (replaceLast i m l) as [l'|] eqn:Hrep; [|exact Happ].
  rewrite (replaceLast_length i m l l' Hrep).
  destruct (replaceLast_In i m l l' Hrep) as [Hin Hsub].
  split; [lia|]. now split.
Qed.

Lemma mergeMessage_nonempty (l : list BaseMessage) (m : BaseMessage) :
  mergeMessage l m <> [].
Proof.
  destruct (mergeMessage_spec l m) as [_ [Hin _]].
  intros H. now rewrite H in Hin.
Qed.

Section Runs.
Variable PROMPT : Prompts.
Context {W : Type}.
Variable h : Handler LlmE W.

(** The calls a run can make: the two of the initial step on the state the
    run starts from, the one of the certification step on the state after
    the initial step. *)
Definition replyCall (st0 : State) : LlmE (Settled AIMessageChunk) :=
  Invoke (SystemMessage None (init_system PROMPT) :: messages st0).

Definition classificationCall (st0 : State) : LlmE (Settled string) :=
  StructuredInvoke routingSchema "RouteUserRequest"
    (SystemMessage None (routing_system PROMPT)
       :: messages st0 ++ [HumanMessage None (routing_user PROMPT)]).

Definition certificationCall (st1 : State) : LlmE (Settled AIMessageChunk) :=
  Invoke (SystemMessage None (certification_system PROMPT)
            :: trimHistory (messages st1)).

(** The updates the two steps return. *)
Definition initialUpdate (reply : AIMessageChunk) (label : string) : Update :=
  mkUpdate (Some (Many [asMessage reply])) (Some label) None.

Definition certificationUpdate (reply : AIMessageChunk) : Update :=
  mkUpdate (Some (One (asMessage reply))) None None.

(** The state after the initial step. *)
Definition afterInitial (st0 : State) (reply : AIMessageChunk) (label : string)
  : State :=
  applyUpdate st0 (initialUpdate reply label).

Lemma messages_afterInitial (st0 : State) (reply : AIMessageChunk) (label : string) :
  messages (afterInitial st0 reply label)
  = mergeMessage (messages st0) (asMessage reply).
Proof. reflexivity. Qed.

(** With a reply whose id is new, the step appends it and the certification
    step trims it again. *)
Lemma trimHistory_afterInitial (st0 : State) (reply : AIMessageChunk) (label : string) :
  freshId (chunk_id reply) (messages st0) = true ->
  messages (afterInitial st0 reply label) = messages st0 ++ [asMessage reply] /\
  trimHistory (messages (afterInitial st0 reply label)) = messages st0.
Proof.
  intros Hfresh. rewrite messages_afterInitial.
  rewrite (mergeMessage_fresh _ (asMessage reply)) by exact Hfresh.
  split; [reflexivity|].
  unfold trimHistory. now rewrite at_last, slice_drop_last.
Qed.

(** The run of the certification step on a history that is not empty. *)
Lemma run_certificationSupport (w : W) (st : State) :
  messages st <> [] ->
  run h (certificationSupport PROMPT st) w =
  match h _ (certificationCall st) w with
  | (Fulfilled reply, w') =>
      mkRun (Done (certificationUpdate reply)) w' [Called (certificationCall st)]
  | (Rejected e, w') => mkRun (Failed e) w' [Called (certificationCall st)]
  end.
Proof.
  destruct st as [msgs nr ra]. cbn [messages]. intros Hne.
  destruct (array_cases msgs) as [-> | [history [last ->]]]; [now elim Hne|].
  pose proof (run_certificationSupport_last PROMPT h w history last nr ra) as Hrun.
  cbv zeta in Hrun. rewrite Hrun.
  unfold certificationCall, trimHistory. cbn [messages].
  rewrite at_last, slice_drop_last. fold (isAI last).
  reflexivity.
Qed.

(** The run of the whole workflow, by the answers to its calls. *)
Lemma run_stream (w : W) (input : Update) :
  let st0 := initialState input in
  run h (stream (workflow PROMPT) input) w =
  match h _ (replyCall st0) w with
  | (Rejected e, w1) => mkRun (Failed e) w1 [Called (replyCall st0)]
  | (Fulfilled reply1, w1) =>
      let two := [Called (replyCall st0); Called (classificationCall st0)] in
      match h _ (classificationCall st0) w1 with
      | (Rejected e, w2) => mkRun (Failed e) w2 two
      | (Fulfilled raw, w2) =>
          if String.eqb raw "RESPOND" then
            mkRun (Done (afterInitial st0 reply1 "RESPOND",
                         [("initial_support", initialUpdate reply1 "RESPOND")]))
                  w2 two
          else if String.eqb raw "CERTIFICATION" then
            let st1 := afterInitial st0 reply1 "CERTIFICATION" in
            let three := two ++ [Called (certificationCall st1)] in
            match h _ (certificationCall st1) w2 with
            | (Rejected e, w3) => mkRun (Failed e) w3 three
            | (Fulfilled reply2, w3) =>
                mkRun (Done (applyUpdate st1 (certificationUpdate reply2),
                             [("initial_support", initialUpdate reply1 "CERTIFICATION");
                              ("certification_support", certificationUpdate reply2)]))
                      w3 three
            end
          else mkRun (Failed (OutputParserException "Failed to parse")) w2 two
      end
  end.
Proof.
  intros st0.
  change (stream (workflow PROMPT) input)
    with (pregel recursionLimit (workflow PROMPT) "initial_support" st0).
  unfold recursionLimit.
  rewrite (pregel_step _ _ _ (initialSupport PROMPT)) by reflexivity.
  rewrite run_bind, (run_initialSupport PROMPT h).
  fold (replyCall st0). fold (classificationCall st0).
  destruct (h _ (replyCall st0) w) as [[reply1|e] w1]; [|reflexivity].
  destruct (h _ (classificationCall st0) w1) as [[raw|e] w2]; [|reflexivity].
  cbn [existsb routingSchema]. cbv zeta.
  destruct (String.eqb_spec raw "RESPOND") as [-> | Hrespond].
  - cbn [String.eqb Ascii.eqb Bool.eqb andb orb]. rewrite andThen_done.
    rewrite (nextNode_initial_support PROMPT). reflexivity.
  - destruct (String.eqb_spec raw "CERTIFICATION") as [-> | Hcert]; [|reflexivity].
    cbn [String.eqb Ascii.eqb Bool.eqb andb orb]. rewrite andThen_done.
    rewrite (nextNode_initial_support PROMPT).
    fold (initialUpdate reply1 "CERTIFICATION").
    fold (afterInitial st0 reply1 "CERTIFICATION").
    set (st1 := afterInitial st0 reply1 "CERTIFICATION").
    change (router st1) with (@Ret LlmE _ "certification").
    cbn [bind lookup pathMap String.eqb Ascii.eqb Bool.eqb andb].
    rewrite (pregel_step _ _ _ (certificationSupport PROMPT)) by reflexivity.
    rewrite !run_bind.
    rewrite (run_certificationSupport w2 st1)
      by (subst st1; rewrite messages_afterInitial; apply mergeMessage_nonempty).
    destruct (h _ (certificationCall st1) w2) as [[reply2|e] w3]; reflexivity.
Qed.

(** C5, as the code has it. With the classifier answering CERTIFICATION and
    each of the two replies carrying an id that is not yet in the history
    when it is merged (no id, or one that no earlier entry has), the run
    takes the initial step, then the certification step, then ends after
    three calls; the final message list is the history the run started from
    followed by two assistant messages, the answer to the initial step's
    call first and the answer to the certification step's call second. *)
Theorem certification_run_two_replies_new_ids
        (w w1 w2 w3 : W) (input : Update) (reply1 reply2 : AIMessageChunk) :
  let st0 := initialState input in
  let first :=
    Invoke (SystemMessage None (init_system PROMPT) :: messages st0) in
  let classification :=
    StructuredInvoke routingSchema "RouteUserRequest"
      (SystemMessage None (routing_system PROMPT)
         :: messages st0 ++ [HumanMessage None (routing_user PROMPT)]) in
  let certification :=
    Invoke (SystemMessage None (certification_system PROMPT) :: messages st0) in
  h _ first w = (Fulfilled reply1, w1) ->
  h _ classification w1 = (Fulfilled "CERTIFICATION", w2) ->
  h _ certification w2 = (Fulfilled reply2, w3) ->
  freshId (chunk_id reply1) (messages st0) = true ->
  freshId (chunk_id reply2) (messages st0 ++ [asMessage reply1]) = true ->
  exists final,
    run h (stream (workflow PROMPT) input) w
    = mkRun (Done (final,
                   [("initial_support",
                     mkUpdate (Some (Many [asMessage reply1]))
                              (Some "CERTIFICATION") None);
                    ("certification_support",
                     mkUpdate (Some (One (asMessage reply2))) None None)]))
            w3 [Called first; Called classification; Called certification]
    /\ messages final = messages st0 ++ [asMessage reply1; asMessage reply2]
    /\ filter isAI (messages final)
       = filter isAI (messages st0) ++ [asMessage reply1; asMessage reply2].
Proof.
  intros st0 first classification certification H1 H2 H3 Hfresh1 Hfresh2.
  pose proof (run_stream w input) as Hrun. cbv zeta in Hrun. fold st0 in Hrun.
  destruct (trimHistory_afterInitial st0 reply1 "CERTIFICATION" Hfresh1)
    as [Hmsgs Htrim].
  unfold replyCall, classificationCall in Hrun.
  fold first classification in Hrun.
  rewrite H1, H2 in Hrun. cbn [String.eqb Ascii.eqb Bool.eqb andb] in Hrun.
  unfold certificationCall in Hrun. rewrite Htrim in Hrun.
  fold certification in Hrun. rewrite H3 in Hrun.
  eexists. split; [exact Hrun|].
  assert (messages (applyUpdate (afterInitial st0 reply1 "CERTIFICATION")
                                (certificationUpdate reply2))
          = messages st0 ++ [asMessage reply1; asMessage reply2]) as Hfinal.
  { change (messages (applyUpdate (afterInitial st0 reply1 "CERTIFICATION")
                                  (certificationUpdate reply2)))
      with (mergeMessage (messages (afterInitial st0 reply1 "CERTIFICATION"))
                         (asMessage reply2)).
    rewrite Hmsgs, (mergeMessage_fresh _ (asMessage reply2)) by exact Hfresh2.
    now rewrite <- app_assoc. }
  split; [exact Hfinal|].
  rewrite Hfinal, filter_app. reflexivity.
Qed.

(** X1. With the classifier answering RESPOND the run is the initial step
    alone: the certification step does not run and the model is called
    twice, never with the certification prompt; the final history is the
    initial one followed by the one reply, when the reply's id is not
    already in it. *)
Theorem respond_run_skips_certification
        (w : W) (input : Update) (Hstub : Stubbed h "RESPOND") :
  let st0 := initialState input in
  let r := run h (stream (workflow PROMPT) input) w in
  exists reply w1 final,
    h _ (Invoke (SystemMessage None (init_system PROMPT) :: messages st0)) w
    = (Fulfilled reply, w1) /\
    outcome r = Done (final, [("initial_support", initialUpdate reply "RESPOND")]) /\
    (freshId (chunk_id reply) (messages st0) = true ->
     messages final = messages st0 ++ [asMessage reply]) /\
    nextRepresentative final = Some "RESPOND" /\
    calls r =
      [Called (Invoke (SystemMessage None (init_system PROMPT) :: messages st0));
       Called (StructuredInvoke routingSchema "RouteUserRequest"
                 (SystemMessage None (routing_system PROMPT)
                    :: messages st0 ++ [HumanMessage None (routing_user PROMPT)]))].
Proof.
  intros st0 r. subst r. destruct Hstub as [Hchat Hlabel].
  pose proof (run_stream w input) as Hrun. cbv zeta in Hrun. fold st0 in Hrun.
  destruct (Hchat (SystemMessage None (init_system PROMPT) :: messages st0) w)
    as [reply [w1 H1]].
  unfold replyCall at 1 in Hrun. rewrite H1 in Hrun.
  destruct (Hlabel routingSchema "RouteUserRequest"
                   (SystemMessage None (routing_system PROMPT)
                      :: messages st0 ++ [HumanMessage None (routing_user PROMPT)]) w1)
    as [w2 H2].
  unfold classificationCall at 1 in Hrun. rewrite H2 in Hrun.
  cbn [String.eqb Ascii.eqb Bool.eqb andb] in Hrun.
  exists reply, w1. eexists. rewrite Hrun. cbn [outcome calls].
  split; [exact H1|]. split; [reflexivity|]. split; [|split; reflexivity].
  intros Hfresh.
  exact (proj1 (trimHistory_afterInitial st0 reply "RESPOND" Hfresh)).
Qed.

(** X2. With the classifier answering CERTIFICATION the model is called three
    times, and, the first reply's id not being in the history already, the
    third call, the certification step's, carries the certification prompt
    followed by the history the run started from: the reply of the initial
    step is not shown to it. *)
Theorem certification_run_calls
        (w : W) (input : Update) (Hstub : Stubbed h "CERTIFICATION") :
  let st0 := initialState input in
  let r := run h (stream (workflow PROMPT) input) w in
  exists reply1 w1,
    h _ (Invoke (SystemMessage None (init_system PROMPT) :: messages st0)) w
    = (Fulfilled reply1, w1) /\
    List.length (calls r) = 3 /\
    (freshId (chunk_id reply1) (messages st0) = true ->
     calls r =
       [Called (Invoke (SystemMessage None (init_system PROMPT) :: messages st0));
        Called (StructuredInvoke routingSchema "RouteUserRequest"
                  (SystemMessage None (routing_system PROMPT)
                     :: messages st0 ++ [HumanMessage None (routing_user PROMPT)]));
        Called (Invoke (SystemMessage None (certification_system PROMPT)
                          :: messages st0))]).
Proof.
  intros st0 r. subst r. destruct Hstub as [Hchat Hlabel].
  pose proof (run_stream w input) as Hrun. cbv zeta in Hrun. fold st0 in Hrun.
  destruct (Hchat (SystemMessage None (init_system PROMPT) :: messages st0) w)
    as [reply1 [w1 H1]].
  unfold replyCall at 1 in Hrun. rewrite H1 in Hrun.
  destruct (Hlabel routingSchema "RouteUserRequest"
                   (SystemMessage None (routing_system PROMPT)
                      :: messages st0 ++ [HumanMessage None (routing_user PROMPT)]) w1)
    as [w2 H2].
  unfold classificationCall at 1 in Hrun. rewrite H2 in Hrun.
  cbn [String.eqb Ascii.eqb Bool.eqb andb] in Hrun.
  destruct (Hchat (SystemMessage None (certification_system PROMPT)
                     :: trimHistory (messages (afterInitial st0 reply1 "CERTIFICATION")))
                  w2) as [reply2 [w3 H3]].
  unfold certificationCall at 1 in Hrun. rewrite H3 in Hrun.
  exists reply1, w1. rewrite Hrun. cbn [calls].
  split; [exact H1|]. split; [reflexivity|].
  intros Hfresh. unfold certificationCall.
  now rewrite (proj2 (trimHistory_afterInitial st0 reply1 "CERTIFICATION" Hfresh)).
Qed.

(** X3. A rejected call ends the run with the error it was rejected with, and
    no later call is made: after a rejected reply call the classifier is not
    asked, after a rejected classification no certification step runs, and a
    rejected certification call leaves no final state. *)
Theorem rejection_ends_run (w : W) (input : Update) (e : Error) :
  let st0 := initialState input in
  let r := run h (stream (workflow PROMPT) input) w in
  (forall w1,
      h _ (replyCall st0) w = (Rejected e, w1) ->
      r = mkRun (Failed e) w1 [Called (replyCall st0)])
  /\
  (forall reply1 w1 w2,
      h _ (replyCall st0) w = (Fulfilled reply1, w1) ->
      h _ (classificationCall st0) w1 = (Rejected e, w2) ->
      r = mkRun (Failed e) w2
                [Called (replyCall st0); Called (classificationCall st0)])
  /\
  (forall reply1 w1 w2 w3,
      let st1 := afterInitial st0 reply1 "CERTIFICATION" in
      h _ (replyCall st0) w = (Fulfilled reply1, w1) ->
      h _ (classificationCall st0) w1 = (Fulfilled "CERTIFICATION", w2) ->
      h _ (certificationCall st1) w2 = (Rejected e, w3) ->
      r = mkRun (Failed e) w3
                [Called (replyCall st0); Called (classificationCall st0);
                 Called (certificationCall st1)]).
Proof.
  intros st0 r. subst r.
  pose proof (run_stream w input) as Hrun. cbv zeta in Hrun. fold st0 in Hrun.
  repeat split.
  - intros w1 H1. now rewrite Hrun, H1.
  - intros reply1 w1 w2 H1 H2. now rewrite Hrun, H1, H2.
  - intros reply1 w1 w2 w3 st1 H1 H2 H3. subst st1. now rewrite Hrun, H1, H2, H3.
Qed.

(** X4. A classification outside the enumeration ends the run with a parse
    failure after the two calls of the initial step: no update is merged and
    neither the router nor the certification step runs, also when the value
    contains CERTIFICATION. *)
Theorem unlisted_label_ends_run
        (w w1 w2 : W) (input : Update) (reply1 : AIMessageChunk) (raw : string)
        (Hreply : h _ (replyCall (initialState input)) w = (Fulfilled reply1, w1))
        (Hraw : h _ (classificationCall (initialState input)) w1 = (Fulfilled raw, w2))
        (Hout : ~ In raw routingSchema) :
  run h (stream (workflow PROMPT) input) w =
  mkRun (Failed (OutputParserException "Failed to parse")) w2
        [Called (replyCall (initialState input));
         Called (classificationCall (initialState input))].
Proof.
  pose proof (run_stream w input) as Hrun. cbv zeta in Hrun.
  rewrite Hrun, Hreply, Hraw.
  destruct (String.eqb_spec raw "RESPOND") as [-> | _].
  - exfalso. apply Hout. simpl. auto.
  - destruct (String.eqb_spec raw "CERTIFICATION") as [-> | _]; [|reflexivity].
    exfalso. apply Hout. simpl. auto.
Qed.

(** X5. Whatever the model answers, a run that completes took the initial
    step, and after it the certification step exactly when the stored label
    is CERTIFICATION; the stored label is one of the two of the enumeration
    and refundAuthorized is as it was.  The history has not shrunk and has
    grown by at most one entry per step, and every entry that was not there
    at the start is an assistant message. *)
Theorem completed_run_invariant (w : W) (input : Update) :
  let st0 := initialState input in
  match outcome (run h (stream (workflow PROMPT) input) w) with
  | Done (final, steps) =>
      (map fst steps = ["initial_support"] /\
       nextRepresentative final = Some "RESPOND"
       \/
       map fst steps = ["initial_support"; "certification_support"] /\
       nextRepresentative final = Some "CERTIFICATION") /\
      refundAuthorized final = refundAuthorized st0 /\
      (List.length (messages st0) <= List.length (messages final)
       <= List.length (messages st0) + List.length steps)%nat /\
      (forall m, In m (messages final) -> In m (messages st0) \/ isAI m = true)
  | Failed _ => True
  | Exited _ => False
  end.
Proof.
  intros st0.
  pose proof (run_stream w input) as Hrun. cbv zeta in Hrun. fold st0 in Hrun.
  rewrite Hrun. clear Hrun.
  destruct (h _ (replyCall st0) w) as [[reply1|e] w1]; [|exact I].
  destruct (h _ (classificationCall st0) w1) as [[raw|e] w2]; [|exact I].
  pose proof (mergeMessage_spec (messages st0) (asMessage reply1))
    as [Hlen1 [_ Hsub1]].
  destruct (String.eqb raw "RESPOND").
  - cbn [outcome]. split; [left; now split|]. split; [reflexivity|].
    rewrite messages_afterInitial. cbn [List.length]. split; [lia|].
    intros m Hm. destruct (Hsub1 m Hm) as [H | ->]; [now left | now right].
  - destruct (String.eqb raw "CERTIFICATION"); [|exact I].
    set (st1 := afterInitial st0 reply1 "CERTIFICATION").
    destruct (h _ (certificationCall st1) w2) as [[reply2|e] w3]; [|exact I].
    cbn [outcome]. split; [right; now split|]. split; [reflexivity|].
    change (messages (applyUpdate st1 (certificationUpdate reply2)))
      with (mergeMessage (mergeMessage (messages st0) (asMessage reply1))
                         (asMessage reply2)).
    pose proof (mergeMessage_spec (mergeMessage (messages st0) (asMessage reply1))
                                  (asMessage reply2)) as [Hlen2 [_ Hsub2]].
    cbn [List.length]. split; [lia|].
    intros m Hm. destruct (Hsub2 m Hm) as [H | ->]; [|now right].
    destruct (Hsub1 m H) as [H' | ->]; [now left | now right].
Qed.

(** X6. With a model that rejects no call, the only way a run fails is the
    parse of the classification: the TypeErrors of the router and of the
    certification step, and the step limit of the engine, are out of reach
    within the workflow.  Such a run makes two or three calls. *)
Theorem run_fails_only_on_parse
        (w : W) (input : Update) (Hmodel : NeverRejects h) :
  let r := run h (stream (workflow PROMPT) input) w in
  ((exists final steps, outcome r = Done (final, steps)) \/
   outcome r = Failed (OutputParserException "Failed to parse")) /\
  (List.length (calls r) = 2 \/ List.length (calls r) = 3).
Proof.
  intros r. subst r. destruct Hmodel as [Hchat Hlabel].
  pose proof (run_stream w input) as Hrun. cbv zeta in Hrun.
  set (st0 := initialState input) in *.
  destruct (Hchat (SystemMessage None (init_system PROMPT) :: messages st0) w)
    as [reply1 [w1 H1]].
  unfold replyCall at 1 in Hrun. rewrite H1 in Hrun.
  destruct (Hlabel routingSchema "RouteUserRequest"
                   (SystemMessage None (routing_system PROMPT)
                      :: messages st0 ++ [HumanMessage None (routing_user PROMPT)]) w1)
    as [raw [w2 H2]].
  unfold classificationCall at 1 in Hrun. rewrite H2 in Hrun.
  destruct (Hchat (SystemMessage None (certification_system PROMPT)
                     :: trimHistory (messages (afterInitial st0 reply1 "CERTIFICATION")))
                  w2) as [reply2 [w3 H3]].
  unfold certificationCall at 1 in Hrun. rewrite H3 in Hrun.
  rewrite Hrun. clear Hrun.
  destruct (String.eqb raw "RESPOND"); [|destruct (String.eqb raw "CERTIFICATION")];
    cbn [outcome calls List.length app]; split; eauto.
Qed.

(** X7. The certification step trims on the type "ai" only: when the last
    entry is of any other type (a tool result, a system message, ...) the
    model receives the whole history after the certification prompt. *)
Theorem certificationSupport_keeps_other_last
        (w : W) (history : list BaseMessage) (last : BaseMessage)
        (nr : option string) (ra : option bool)
        (Hlast : _getType last <> "ai") :
  calls (run h (certificationSupport PROMPT (mkState (history ++ [last]) nr ra)) w)
  = [Called (Invoke (SystemMessage None (certification_system PROMPT)
                       :: history ++ [last]))].
Proof.
  pose proof (run_certificationSupport_last PROMPT h w history last nr ra) as Hrun.
  cbv zeta in Hrun. rewrite Hrun. clear Hrun.
  assert (isAI last = false) as ->.
  { unfold isAI. now apply String.eqb_neq. }
  destruct (h _ (Invoke _) w) as [[c|e] w']; reflexivity.
Qed.

(** X8. The certification step trims once: of two trailing assistant
    messages only the last is dropped, so the history the model receives
    still ends in an assistant message and not in the user's question. *)
Theorem certificationSupport_trims_once
        (w : W) (history : list BaseMessage) (ida idb : option string)
        (a b : string) (nr : option string) (ra : option bool) :
  exists input,
    calls (run h (certificationSupport PROMPT
                    (mkState (history ++ [AIMessage ida a; AIMessage idb b]) nr ra)) w)
    = [Called (Invoke (SystemMessage None (certification_system PROMPT) :: input))] /\
    JS.at_ input (-1) = Some (AIMessage ida a) /\
    input = history ++ [AIMessage ida a].
Proof.
  exists (history ++ [AIMessage ida a]).
  split; [|split; [apply at_last | reflexivity]].
  change (history ++ [AIMessage ida a; AIMessage idb b])
    with (history ++ [AIMessage ida a] ++ [AIMessage idb b]).
  rewrite app_assoc.
  pose proof (run_certificationSupport_last
                PROMPT h w (history ++ [AIMessage ida a]) (AIMessage idb b) nr ra)
    as Hrun.
  cbv zeta in Hrun. rewrite Hrun. clear Hrun.
  cbn [isAI _getType String.eqb Ascii.eqb Bool.eqb andb].
  destruct (h _ (Invoke _) w) as [[c|e] w']; reflexivity.
Qed.

End Runs.

(** ** Instances on concrete inputs *)

Lemma stubModel_NeverRejects (reply label : string) :
  NeverRejects (stubModel reply label).
Proof.
  split.
  - intros input w. now exists (mkChunk None reply), w.
  - intros schema name input w. now exists label, w.
Qed.

Lemma sameIdModel_Stubbed (id : string) : Stubbed (sameIdModel id) "CERTIFICATION".
Proof.
  split.
  - intros input w. eexists. eexists. reflexivity.
  - intros schema name input w. now exists w.
Qed.

(** C5 as the spec states it fails for a model, stubbed to CERTIFICATION,
    whose two replies carry the same id: the reply of the certification
    step takes the place of the reply of the initial step, and the final
    message list holds one assistant message. *)
Lemma certification_run_same_id_counterexample :
  Stubbed (sameIdModel "chatcmpl-1") "CERTIFICATION" /\
  outcome (run (sameIdModel "chatcmpl-1")
               (stream (workflow stubPrompts) scenario01) 0)
  = Done (mkState
            [HumanMessage None
               "'교류전원을 사용하는 전동공구' 는 어떤 KC인증을 받아야해??";
             AIMessage (Some "chatcmpl-1") "second"]
            (Some "CERTIFICATION") None,
          [("initial_support",
            mkUpdate (Some (Many [AIMessage (Some "chatcmpl-1") "first"]))
                     (Some "CERTIFICATION") None);
           ("certification_support",
            mkUpdate (Some (One (AIMessage (Some "chatcmpl-1") "second")))
                     None None)]).
Proof. split; [apply sameIdModel_Stubbed | reflexivity]. Qed.

(** C5, amended, on the scenario of the script with replies without ids. *)
Lemma certification_run_two_replies_new_ids_witness :
  let h := stubModel "reply" "CERTIFICATION" in
  let q := HumanMessage None
             "'교류전원을 사용하는 전동공구' 는 어떤 KC인증을 받아야해??" in
  let first := Invoke [SystemMessage None "INIT"; q] in
  let classification :=
    StructuredInvoke routingSchema "RouteUserRequest"
                     [SystemMessage None "ROUTING"; q; HumanMessage None "ROUTE?"] in
  let certification := Invoke [SystemMessage None "CERT"; q] in
  freshId None [q] = true /\
  exists final,
    run h (stream (workflow stubPrompts) scenario01) tt
    = mkRun (Done (final,
                   [("initial_support",
                     mkUpdate (Some (Many [AIMessage None "reply"]))
                              (Some "CERTIFICATION") None);
                    ("certification_support",
                     mkUpdate (Some (One (AIMessage None "reply"))) None None)]))
            tt [Called first; Called classification; Called certification]
    /\ messages final = [q] ++ [AIMessage None "reply"; AIMessage None "reply"]
    /\ filter isAI (messages final)
       = filter isAI [q] ++ [AIMessage None "reply"; AIMessage None "reply"].
Proof.
  split; [reflexivity|].
  exact (certification_run_two_replies_new_ids
           stubPrompts (stubModel "reply" "CERTIFICATION") tt tt tt tt scenario01
           (mkChunk None "reply") (mkChunk None "reply")
           eq_refl eq_refl eq_refl eq_refl eq_refl).
Defined.

(** X1 on the scenario of the script, the classifier stubbed to RESPOND. *)
Lemma respond_run_skips_certification_witness :
  let h := stubModel "reply" "RESPOND" in
  let st0 := initialState scenario01 in
  let r := run h (stream (workflow stubPrompts) scenario01) tt in
  Stubbed h "RESPOND" /\
  exists reply w1 final,
    h _ (Invoke (SystemMessage None (init_system stubPrompts) :: messages st0)) tt
    = (Fulfilled reply, w1) /\
    outcome r = Done (final, [("initial_support", initialUpdate reply "RESPOND")]) /\
    (freshId (chunk_id reply) (messages st0) = true ->
     messages final = messages st0 ++ [asMessage reply]) /\
    nextRepresentative final = Some "RESPOND" /\
    calls r =
      [Called (Invoke (SystemMessage None (init_system stubPrompts) :: messages st0));
       Called (StructuredInvoke routingSchema "RouteUserRequest"
                 (SystemMessage None (routing_system stubPrompts)
                    :: messages st0 ++ [HumanMessage None (routing_user stubPrompts)]))].
Proof.
  split; [apply stubModel_Stubbed|].
  exact (respond_run_skips_certification
           stubPrompts (stubModel "reply" "RESPOND") tt scenario01
           (stubModel_Stubbed "reply" "RESPOND")).
Defined.

(** X2 on the scenario of the script. *)
Lemma certification_run_calls_witness :
  let h := stubModel "reply" "CERTIFICATION" in
  let st0 := initialState scenario01 in
  let r := run h (stream (workflow stubPrompts) scenario01) tt in
  Stubbed h "CERTIFICATION" /\
  exists reply1 w1,
    h _ (Invoke (SystemMessage None (init_system stubPrompts) :: messages st0)) tt
    = (Fulfilled reply1, w1) /\
    List.length (calls r) = 3 /\
    (freshId (chunk_id reply1) (messages st0) = true ->
     calls r =
       [Called (Invoke (SystemMessage None (init_system stubPrompts) :: messages st0));
        Called (StructuredInvoke routingSchema "RouteUserRequest"
                  (SystemMessage None (routing_system stubPrompts)
                     :: messages st0 ++ [HumanMessage None (routing_user stubPrompts)]));
        Called (Invoke (SystemMessage None (certification_system stubPrompts)
                          :: messages st0))]).
Proof.
  split; [apply stubModel_Stubbed|].
  exact (certification_run_calls
           stubPrompts (stubModel "reply" "CERTIFICATION") tt scenario01
           (stubModel_Stubbed "reply" "CERTIFICATION")).
Defined.

(** X3 on a model scripted to answer twice and then reject: the certification
    call is rejected and the run ends with that error after three calls. *)
Lemma rejection_ends_run_witness :
  let script :=
    [Fulfilled "reply"; Fulfilled "CERTIFICATION"; Rejected (ExternalError "429")] in
  let st0 := initialState scenario01 in
  run scriptedModel (stream (workflow stubPrompts) scenario01) script
  = mkRun (Failed (ExternalError "429")) []
          [Called (replyCall stubPrompts st0);
           Called (classificationCall stubPrompts st0);
           Called (Invoke (SystemMessage None (certification_system stubPrompts)
                             :: messages st0))].
Proof.
  exact (proj2 (proj2 (rejection_ends_run
                         stubPrompts scriptedModel
                         [Fulfilled "reply"; Fulfilled "CERTIFICATION";
                          Rejected (ExternalError "429")]
                         scenario01 (ExternalError "429")))
               (mkChunk None "reply") _ _ _ eq_refl eq_refl eq_refl).
Defined.

Lemma NOT_CERTIFICATION_unlisted : ~ In "NOT_CERTIFICATION" routingSchema.
Proof. simpl. intuition discriminate. Defined.

(** X4 on a model scripted to classify as NOT_CERTIFICATION. *)
Lemma unlisted_label_ends_run_witness :
  let script := [Fulfilled "reply"; Fulfilled "NOT_CERTIFICATION"] in
  let st0 := initialState scenario01 in
  ~ In "NOT_CERTIFICATION" routingSchema /\
  run scriptedModel (stream (workflow stubPrompts) scenario01) script
  = mkRun (Failed (OutputParserException "Failed to parse")) []
          [Called (replyCall stubPrompts st0);
           Called (classificationCall stubPrompts st0)].
Proof.
  split; [exact NOT_CERTIFICATION_unlisted|].
  exact (unlisted_label_ends_run
           stubPrompts scriptedModel
           [Fulfilled "reply"; Fulfilled "NOT_CERTIFICATION"]
           [Fulfilled "NOT_CERTIFICATION"] [] scenario01
           (mkChunk None "reply") "NOT_CERTIFICATION"
           eq_refl eq_refl NOT_CERTIFICATION_unlisted).
Defined.

(** On a model whose replies share an id the run completes with two steps
    while the history grows by one entry only. *)
Example completed_run_same_id :
  let r := run (sameIdModel "chatcmpl-1")
               (stream (workflow stubPrompts) scenario01) 0 in
  match outcome r with
  | Done (final, steps) =>
      List.length steps = 2 /\
      List.length (messages final)
      = S (List.length (messages (initialState scenario01)))
  | _ => False
  end.
Proof. split; reflexivity. Qed.

(** X6 on the stub model. *)
Lemma run_fails_only_on_parse_witness :
  let r := run (stubModel "reply" "RESPOND")
               (stream (workflow stubPrompts) scenario01) tt in
  NeverRejects (stubModel "reply" "RESPOND") /\
  ((exists final steps, outcome r = Done (final, steps)) \/
   outcome r = Failed (OutputParserException "Failed to parse")) /\
  (List.length (calls r) = 2 \/ List.length (calls r) = 3).
Proof.
  split; [apply stubModel_NeverRejects|].
  exact (run_fails_only_on_parse
           stubPrompts (stubModel "reply" "RESPOND") tt scenario01
           (stubModel_NeverRejects "reply" "RESPOND")).
Defined.

Lemma tool_is_not_ai : _getType (ToolMessage None "42") <> "ai".
Proof. discriminate. Defined.

(** X7 on a history that ends in a tool result. *)
Lemma certificationSupport_keeps_other_last_witness :
  _getType (ToolMessage None "42") <> "ai" /\
  calls (run (stubModel "reply" "RESPOND")
             (certificationSupport stubPrompts
                (mkState ([HumanMessage None "q"] ++ [ToolMessage None "42"])
                         None None)) tt)
  = [Called (Invoke (SystemMessage None (certification_system stubPrompts)
                       :: [HumanMessage None "q"] ++ [ToolMessage None "42"]))].
Proof.
  split; [exact tool_is_not_ai|].
  exact (certificationSupport_keeps_other_last
           stubPrompts (stubModel "reply" "RESPOND") tt
           [HumanMessage None "q"] (ToolMessage None "42") None None tool_is_not_ai).
Defined.

End AgentRuns.

(** ** The bootstrap script as a whole *)

Module SqlToolRuns.
Import SqlTool.

(** A stub of the outside in which both awaited calls can be made to fail:
    the connection answers [connect], the database wrapper [wrap]. *)
Definition stubDatabase (connect wrap : Settled unit)
  : Handler (SqlE unit unit unit unit) unit :=
  fun X e w =>
    match e in SqlE _ _ _ _ X return X * unit with
    | DataSourceInitialize _ => (connect, w)
    | ConsoleLog _ => (tt, w)
    | ConsoleError _ _ => (tt, w)
    | FromDataSourceParams => (wrap, w)
    | NewSqlToolkit _ => (tt, w)
    | GetTools _ => ([tt; tt], w)
    | ConsoleLogTools _ => (tt, w)
    | CreateReactAgent _ => (tt, w)
    end.

Section Bootstrap.
Variables Db Toolkit Tool AgentExecutor : Type.
Variable url : option string.
Context {W : Type}.
Variable h : Handler (SqlE Db Toolkit Tool AgentExecutor) W.

(** The name of a logged call as the script writes it. *)
Definition callName (c : Call (SqlE Db Toolkit Tool AgentExecutor)) : string :=
  match c with
  | Called e =>
      match e with
      | DataSourceInitialize _ => "datasource.initialize"
      | ConsoleLog _ => "console.log"
      | ConsoleError _ _ => "console.error"
      | FromDataSourceParams => "SqlDatabase.fromDataSourceParams"
      | NewSqlToolkit _ => "new SqlToolkit"
      | GetTools _ => "toolkit.getTools"
      | ConsoleLogTools _ => "console.log"
      | CreateReactAgent _ => "createReactAgent"
      end
  end.

(** The tool lists that were printed, and those an agent was created with. *)
Definition printedTools (cs : list (Call (SqlE Db Toolkit Tool AgentExecutor)))
  : list (list Tool) :=
  flat_map (fun c =>
              match c with
              | Called e =>
                  match e with
                  | ConsoleLogTools tools => [tools]
                  | _ => []
                  end
              end) cs.

Definition agentTools (cs : list (Call (SqlE Db Toolkit Tool AgentExecutor)))
  : list (list Tool) :=
  flat_map (fun c =>
              match c with
              | Called e =>
                  match e with
                  | CreateReactAgent tools => [tools]
                  | _ => []
                  end
              end) cs.

Definition connected : string := "Supabase 데이터베이스에 성공적으로 연결되었습니다.".
Definition connectFailed : string := "데이터베이스 연결 중 오류 발생: ".

(** The run of the script, by the answers to its calls. *)
Lemma run_main (w : W) :
  run h (main Db Toolkit Tool AgentExecutor url) w =
  match h _ (DataSourceInitialize url) w with
  | (Rejected error, w1) =>
      let (_, w2) := h _ (ConsoleError connectFailed error) w1 in
      mkRun (Exited 1) w2
            [Called (DataSourceInitialize url);
             Called (ConsoleError connectFailed error)]
  | (Fulfilled _, w1) =>
      let (_, w2) := h _ (ConsoleLog connected) w1 in
      match h _ FromDataSourceParams w2 with
      | (Rejected e, w3) =>
          mkRun (Failed e) w3
                [Called (DataSourceInitialize url); Called (ConsoleLog connected);
                 Called FromDataSourceParams]
      | (Fulfilled db, w3) =>
          let (toolkit, w4) := h _ (NewSqlToolkit db) w3 in
          let (tools, w5) := h _ (GetTools toolkit) w4 in
          let (_, w6) := h _ (ConsoleLogTools tools) w5 in
          let (_, w7) := h _ (CreateReactAgent tools) w6 in
          mkRun (Done systemPrompt) w7
                [Called (DataSourceInitialize url); Called (ConsoleLog connected);
                 Called FromDataSourceParams; Called (NewSqlToolkit db);
                 Called (GetTools toolkit); Called (ConsoleLogTools tools);
                 Called (CreateReactAgent tools)]
      end
  end.
Proof.
  unfold main, try_await, await, call, connected, connectFailed. cbn [bind run].
  destruct (h _ (DataSourceInitialize url) w) as [[u|error] w1]; cbn [bind run].
  - destruct (h _ (ConsoleLog _) w1) as [u' w2]; cbn [bind run].
    destruct (h _ FromDataSourceParams w2) as [[db|e] w3]; cbn [bind run];
      [|reflexivity].
    destruct (h _ (NewSqlToolkit db) w3) as [toolkit w4]; cbn [bind run].
    destruct (h _ (GetTools toolkit) w4) as [tools w5]; cbn [bind run].
    destruct (h _ (ConsoleLogTools tools) w5) as [u'' w6]; cbn [bind run].
    destruct (h _ (CreateReactAgent tools) w6) as [agent w7]; reflexivity.
  - destruct (h _ (ConsoleError _ error) w1) as [u' w2]; reflexivity.
Qed.

(** X9. The script ends in one of three ways, and which one is decided by
    the connection first: a failed connection gives exit status 1 after the
    error line; an established one gives either the full bootstrap, seven
    calls in the order of the script, or, when the database wrapper cannot
    be built, an uncaught failure after three calls.  So the process exits
    only on a failed connection, and console.error is used only there. *)
Theorem bootstrap_three_endings (w : W) :
  let r := run h (main Db Toolkit Tool AgentExecutor url) w in
  match fst (h _ (DataSourceInitialize url) w) with
  | Rejected _ =>
      outcome r = Exited 1 /\
      map callName (calls r) = ["datasource.initialize"; "console.error"]
  | Fulfilled _ =>
      (outcome r = Done systemPrompt /\
       map callName (calls r) =
         ["datasource.initialize"; "console.log";
          "SqlDatabase.fromDataSourceParams"; "new SqlToolkit";
          "toolkit.getTools"; "console.log"; "createReactAgent"])
      \/
      ((exists e, outcome r = Failed e) /\
       map callName (calls r) =
         ["datasource.initialize"; "console.log";
          "SqlDatabase.fromDataSourceParams"])
  end.
Proof.
  intros r. subst r. rewrite run_main.
  destruct (h _ (DataSourceInitialize url) w) as [[u|error] w1]; cbn [fst].
  - destruct (h _ (ConsoleLog _) w1) as [u' w2].
    destruct (h _ FromDataSourceParams w2) as [[db|e] w3].
    + destruct (h _ (NewSqlToolkit db) w3) as [toolkit w4].
      destruct (h _ (GetTools toolkit) w4) as [tools w5].
      destruct (h _ (ConsoleLogTools tools) w5) as [u'' w6].
      destruct (h _ (CreateReactAgent tools) w6) as [agent w7].
      left. split; reflexivity.
    + right. split; [now exists e | reflexivity].
  - destruct (h _ (ConsoleError _ error) w1) as [u' w2]. split; reflexivity.
Qed.

(** X10. A failure to build the database wrapper is outside the try block:
    after an established connection it ends the script with that error, not
    with an exit status and without an error line, before the toolkit, the
    tools or the agent are built. *)
Theorem bootstrap_wrapper_failure_uncaught
        (w w1 w2 w3 : W) (u u' : unit) (e : Error)
        (Hconnect : h _ (DataSourceInitialize url) w = (Fulfilled u, w1))
        (Hlog : h _ (ConsoleLog connected) w1 = (u', w2))
        (Hwrap : h _ FromDataSourceParams w2 = (Rejected e, w3)) :
  run h (main Db Toolkit Tool AgentExecutor url) w =
  mkRun (Failed e) w3
        [Called (DataSourceInitialize url); Called (ConsoleLog connected);
         Called FromDataSourceParams].
Proof. now rewrite run_main, Hconnect, Hlog, Hwrap. Qed.

(** X11. The agent is created with the very tool list that was printed, and
    an agent is created exactly in the runs that complete; no run prints or
    uses a second tool list. *)
Theorem bootstrap_agent_gets_printed_tools (w : W) :
  let r := run h (main Db Toolkit Tool AgentExecutor url) w in
  agentTools (calls r) = printedTools (calls r) /\
  match outcome r with
  | Done _ => exists tools, agentTools (calls r) = [tools]
  | Failed _ => agentTools (calls r) = []
  | Exited _ => agentTools (calls r) = []
  end.
Proof.
  intros r. subst r. rewrite run_main.
  destruct (h _ (DataSourceInitialize url) w) as [[u|error] w1].
  - destruct (h _ (ConsoleLog _) w1) as [u' w2].
    destruct (h _ FromDataSourceParams w2) as [[db|e] w3].
    + destruct (h _ (NewSqlToolkit db) w3) as [toolkit w4].
      destruct (h _ (GetTools toolkit) w4) as [tools w5].
      destruct (h _ (ConsoleLogTools tools) w5) as [u'' w6].
      destruct (h _ (CreateReactAgent tools) w6) as [agent w7].
      split; [reflexivity | now exists tools].
    + split; reflexivity.
  - destruct (h _ (ConsoleError _ error) w1) as [u' w2]. split; reflexivity.
Qed.

End Bootstrap.

(** X10 on a database that connects and then refuses the wrapper. *)
Lemma bootstrap_wrapper_failure_uncaught_witness :
  let h := stubDatabase (Fulfilled tt) (Rejected (ExternalError "permission denied")) in
  h _ FromDataSourceParams tt = (Rejected (ExternalError "permission denied"), tt) /\
  run h (main unit unit unit unit None) tt =
  mkRun (Failed (ExternalError "permission denied")) tt
        [Called (DataSourceInitialize None); Called (ConsoleLog connected);
         Called FromDataSourceParams].
Proof.
  split; [reflexivity|].
  exact (bootstrap_wrapper_failure_uncaught
           unit unit unit unit None
           (stubDatabase (Fulfilled tt) (Rejected (ExternalError "permission denied")))
           tt tt tt tt tt tt (ExternalError "permission denied")
           eq_refl eq_refl eq_refl).
Defined.

(** The agent of the stub gets the two tools the stub toolkit lists. *)
Example bootstrap_stub_tools :
  agentTools unit unit unit unit
             (calls (run (stubDatabase (Fulfilled tt) (Fulfilled tt))
                         (main unit unit unit unit None) tt))
  = [[tt; tt]].
Proof. reflexivity. Qed.

End SqlToolRuns.
